(** * The Overcooked exploration notebook, embedded in Rocq

    [notebook/overcooked-rl-playground.ipynb] is a linear script of nine code
    cells over the [overcooked_ai_py] library.  The library is not part of the
    repository, so the embedding keeps it abstract: every operation the
    notebook performs on a library object (an import, an attribute read, a
    call, a subscript, [len], an unpacking) is answered by an oracle [lib],
    which may depend on everything that happened before (the library is
    stateful and the agents of Cell 9 are random).  What the notebook itself
    does -- sequencing, the one [try]/[except], tuple building, f-string
    formatting, [print] and cell display -- is modelled as written, in a state
    and exception monad whose state is the log of the operations performed
    and of the outputs produced. *)

From Stdlib Require Import ZArith List String Ascii Bool Lia.
From Stdlib Require Import DecimalString.
Import ListNotations.

Open Scope string_scope.
Open Scope list_scope.
Open Scope Z_scope.

#[local] Set Warnings "-register-all".

(** ** Python values and exceptions *)

(** The Python values the notebook builds or inspects itself.  Everything
    else (classes, grid-worlds, states, arrays, dicts made by the library) is
    an opaque object, named by a handle. *)
Inductive value : Type :=
| VNone
| VBool (b : bool)
| VInt (n : Z)
| VFloat (literal : string)
| VStr (s : string)
| VTuple (items : list value)
| VList (items : list value)
| VObj (handle : N).

(** Exception classes.  [AttributeError] stands for that class and its
    subclasses, which is what [except AttributeError] matches. *)
Inductive exn : Type :=
| AttributeError
| ImportError
| IndexError
| KeyError
| TypeError
| ValueError
| OtherError (cls : string).

Inductive result (A : Type) : Type :=
| Ok (a : A)
| Raised (e : exn).
Arguments Ok {A} a.
Arguments Raised {A} e.

Definition is_AttributeError (e : exn) : bool :=
  match e with AttributeError => true | _ => false end.

(** ** Operations and the log *)

(** The operations of the notebook that can raise.  [CallMethod] is a method
    call whose arguments are names and constants: nothing happens between
    the lookup of the method and its call.  Where an argument is itself an
    operation (Cell 8), the lookup is a [GetAttr] of its own and the call a
    [Call] of the method it gave. *)
Inductive op : Type :=
| ImportModule (module : string)
| ImportFrom (module name : string)
| GetAttr (obj : value) (name : string)
| Call (callee : value) (args : list value) (kwargs : list (string * value))
| CallMethod (obj : value) (name : string) (args : list value)
             (kwargs : list (string * value))
| GetItem (obj key : value)
| Len (obj : value)
| Unpack (obj : value) (count : nat).

Definition event : Type := op * result value.

(** What the notebook itself puts out: [Stdout args] is a call of [print]
    made by a cell, with its arguments; [Display v] is the value of a cell's
    last expression.  What the library writes while it is called (the
    progress line and the planner messages of Cell 9, the images) is not the
    notebook's doing and is not logged. *)
Inductive output : Type :=
| Stdout (args : list value)
| Display (v : value).

Record world : Type := World {
  trace : list event;
  out : list output
}.

Definition init : world := World [] [].

(** ** Built-in behaviour of Python values *)

Definition utf8_continuation (a : ascii) : bool :=
  let n := N_of_ascii a in ((128 <=? n) && (n <? 192))%N.

(** The characters of a [str]: Rocq strings hold bytes, Python counts code
    points, so the UTF-8 continuation bytes stay with their leading byte. *)
Fixpoint code_points (s : string) : list string :=
  match s with
  | EmptyString => []
  | String a r =>
      match code_points r, r with
      | c :: cs, String b _ =>
          if utf8_continuation b then String a c :: cs
          else String a EmptyString :: c :: cs
      | l, _ => String a EmptyString :: l
      end
  end.

(** The items a built-in value yields when iterated; [None] when it is not
    iterable. *)
Definition items_of (v : value) : option (list value) :=
  match v with
  | VTuple l | VList l => Some l
  | VStr s => Some (map VStr (code_points s))
  | _ => None
  end.

(** [seq[i]] on a built-in sequence, negative indices counting from the
    end. *)
Definition py_index (l : list value) (i : Z) : result value :=
  let n := Z.of_nat (List.length l) in
  let j := if i <? 0 then i + n else i in
  if (0 <=? j) && (j <? n)
  then match nth_error l (Z.to_nat j) with
       | Some v => Ok v
       | None => Raised IndexError
       end
  else Raised IndexError.

Definition index_of_key (k : value) : option Z :=
  match k with
  | VInt i => Some i
  | VBool b => Some (Z.b2z b)
  | _ => None
  end.

(** [sys.maxsize], on a 64-bit build. *)
Definition maxsize : Z := 2 ^ 63 - 1.

(** [len] accepts from [__len__] an integer from 0 to [sys.maxsize] only. *)
Definition check_len (r : result value) : result value :=
  match r with
  | Ok (VInt n) =>
      if n <? 0 then Raised ValueError
      else if maxsize <? n then Raised (OtherError "OverflowError")
      else Ok (VInt n)
  | Ok (VBool b) => Ok (VInt (Z.b2z b))
  | Ok _ => Raised TypeError
  | Raised e => Raised e
  end.

(** [a, b = v]: the items, as a tuple, when there are exactly [count]. *)
Definition check_unpack (count : nat) (items : list value) : result value :=
  if Nat.eqb (List.length items) count then Ok (VTuple items) else Raised ValueError.

Definition is_obj (v : value) : bool :=
  match v with VObj _ => true | _ => false end.

(** ** The recorded outputs *)

(** The value displayed by Cell 3 in the saved notebook. *)
Definition recorded_rows : list (list string) :=
  [["X"; "X"; "X"; "X"; "X"; "X"; "X"; "X"; "X"];
   ["O"; " "; "X"; "S"; "X"; "O"; "X"; " "; "S"];
   ["X"; " "; " "; " "; "P"; " "; " "; " "; "X"];
   ["X"; " "; " "; " "; "P"; " "; " "; " "; "X"];
   ["X"; "X"; "X"; "D"; "X"; "D"; "X"; "X"; "X"]].

Definition grid_of (rows : list (list string)) : value :=
  VList (map (fun row => VList (map VStr row)) rows).

Definition recorded_grid : value := grid_of recorded_rows.

(** The line printed by Cell 3 in the saved notebook. *)
Definition recorded_grid_size : string := "Grid size: 5×9".

(** The shape printed by Cell 6 in the saved notebook. *)
Definition recorded_mask_shape : value := VTuple [VInt 9; VInt 5; VInt 26].

(** ** Sample libraries *)

(** A new object for each operation. *)
Definition fresh (tr : list event) : value :=
  VObj (N.of_nat (List.length tr)).

Definition method_called (name : string) (ev : event) : bool :=
  match fst ev with
  | CallMethod _ m _ _ => String.eqb m name
  | _ => false
  end.

(** A library that answers as the saved notebook records: the grid displayed
    by Cell 3, the shape printed by Cell 6, the length printed by Cell 7, the
    potential printed by Cell 8; pairs where the notebook unpacks pairs, and
    new objects elsewhere. *)
Definition saved_session (tr : list event) (o : op) : result value :=
  match o with
  | GetAttr _ name =>
      if String.eqb name "terrain_mtx" then Ok recorded_grid
      else if String.eqb name "shape"
      then if existsb (method_called "featurize_state") tr
           then Ok (VTuple [VInt 96])
           else Ok recorded_mask_shape
      else if String.eqb name "potential_function" then Ok (VObj 1000)
      else Ok (fresh tr)
  | CallMethod _ name _ _ =>
      if String.eqb name "display_rendered_trajectory" then Ok VNone
      else Ok (fresh tr)
  | Call (VObj 1000) _ _ => Ok (VFloat "30.633689117862914")
  | Unpack _ _ => Ok (VTuple [fresh tr; fresh ((o, Ok VNone) :: tr)])
  | _ => Ok (fresh tr)
  end.

(** A library of the older kind: grid-worlds have no [terrain_mtx], the
    layout is under [grid]. *)
Definition grid_only (tr : list event) (o : op) : result value :=
  match o with
  | GetAttr _ name =>
      if String.eqb name "terrain_mtx" then Raised AttributeError
      else if String.eqb name "grid" then Ok recorded_grid
      else saved_session tr o
  | _ => saved_session tr o
  end.

(** A library in which the named layout does not exist. *)
Definition missing_layout (tr : list event) (o : op) : result value :=
  match o with
  | CallMethod _ name _ _ =>
      if String.eqb name "from_layout_name"
      then Raised (OtherError "FileNotFoundError")
      else saved_session tr o
  | _ => saved_session tr o
  end.

(** A library that rejects the joint action of Cell 5. *)
Definition invalid_action (tr : list event) (o : op) : result value :=
  match o with
  | CallMethod _ name _ _ =>
      if String.eqb name "get_state_transition"
      then Raised ValueError
      else saved_session tr o
  | _ => saved_session tr o
  end.

(** A library whose layout is ragged: two cells in the first row, one in
    the second. *)
Definition ragged_rows : list (list string) := [["X"; "X"]; ["X"]].

Definition ragged_layout (tr : list event) (o : op) : result value :=
  match o with
  | GetAttr _ name =>
      if String.eqb name "terrain_mtx" then Ok (grid_of ragged_rows)
      else saved_session tr o
  | _ => saved_session tr o
  end.

(** A library whose layout has no row. *)
Definition empty_layout (tr : list event) (o : op) : result value :=
  match o with
  | GetAttr _ name =>
      if String.eqb name "terrain_mtx" then Ok (VList [])
      else saved_session tr o
  | _ => saved_session tr o
  end.

(** A library whose encoding yields [count] masks, as a tuple. *)
Definition masks (count : nat) (tr : list event) (o : op) : result value :=
  match o with
  | CallMethod _ name _ _ =>
      if String.eqb name "lossless_state_encoding"
      then Ok (VTuple (map (fun i => VObj (N.of_nat (100 + i))) (seq 0 count)))
      else saved_session tr o
  | _ => saved_session tr o
  end.

Section Library.

(** The library: its answer to an operation on one of its objects, given the
    operations performed so far. *)
Variable lib : list event -> op -> result value.

(** The outcome of an operation: computed for built-in values, asked from the
    library for its objects.  No built-in value has any of the attributes or
    methods the notebook names, and none is callable.  For [len] of an object
    the library answers what [__len__] returns, for an unpacking the items
    the object yields, as a tuple or a list. *)
Definition outcome (tr : list event) (o : op) : result value :=
  match o with
  | ImportModule _ | ImportFrom _ _ => lib tr o
  | GetAttr v _ | CallMethod v _ _ _ =>
      if is_obj v then lib tr o else Raised AttributeError
  | Call f _ _ =>
      if is_obj f then lib tr o else Raised TypeError
  | GetItem v k =>
      if is_obj v then lib tr o
      else match items_of v, index_of_key k with
           | Some l, Some i => py_index l i
           | _, _ => Raised TypeError
           end
  | Len v =>
      if is_obj v then check_len (lib tr o)
      else match items_of v with
           | Some l => Ok (VInt (Z.of_nat (List.length l)))
           | None => Raised TypeError
           end
  | Unpack v count =>
      if is_obj v
      then match lib tr o with
           | Ok w => match items_of w with
                     | Some l => check_unpack count l
                     | None => Raised TypeError
                     end
           | Raised e => Raised e
           end
      else match items_of v with
           | Some l => check_unpack count l
           | None => Raised TypeError
           end
  end.

(** ** The monad of a notebook run *)

Definition M (A : Type) : Type := world -> result A * world.

Definition ret {A} (a : A) : M A := fun w => (Ok a, w).

Definition bind {A B} (m : M A) (f : A -> M B) : M B :=
  fun w => match m w with
           | (Ok a, w') => f a w'
           | (Raised e, w') => (Raised e, w')
           end.

Notation "x <- m ;; k" := (bind m (fun x => k))
  (at level 61, m at next level, right associativity).
Notation "' pat <- m ;; k" :=
  (bind m (fun x => match x with pat => k end))
  (at level 61, pat pattern, m at next level, right associativity).
Notation "m ;;; k" := (bind m (fun _ => k))
  (at level 61, right associativity).

(** Perform an operation: log it with its outcome, return or raise. *)
Definition perform (o : op) : M value :=
  fun w => let r := outcome (trace w) o in
           (r, World (trace w ++ [(o, r)]) (out w)).

(** [try: body / except <classes>: handler]. *)
Definition try_except {A} (body : M A) (catches : exn -> bool)
    (handler : M A) : M A :=
  fun w => match body w with
           | (Raised e, w') =>
               if catches e then handler w' else (Raised e, w')
           | r => r
           end.

Definition emit (o : output) : M unit :=
  fun w => (Ok tt, World (trace w) (out w ++ [o])).

(** [print]: the call is logged with its arguments, as values.  Their
    conversion to text is not modelled: the call is taken to return. *)
Definition print (args : list value) : M unit := emit (Stdout args).

(** The value of a cell's last expression is displayed unless it is
    [None]. *)
Definition display (v : value) : M unit :=
  match v with
  | VNone => ret tt
  | _ => emit (Display v)
  end.

(** [{n}] in an f-string, for an [int]. *)
Definition format_int (n : Z) : string :=
  NilZero.string_of_int (Z.to_int n).

Definition int_of (v : value) : Z :=
  match v with VInt n => n | _ => 0 end.

Definition item (i : nat) (v : value) : value :=
  match v with
  | VTuple l => nth i l VNone
  | _ => VNone
  end.

(** [len(v)]: [outcome] lets only an [int] through. *)
Definition py_len (v : value) : M Z :=
  n <- perform (Len v) ;; ret (int_of n).

(** [a, b = v] *)
Definition unpack2 (v : value) : M (value * value) :=
  t <- perform (Unpack v 2) ;; ret (item 0 t, item 1 t).

(** ** The cells *)

(** The names bound by the imports of Cell 1. *)
Record imports : Type := Imports {
  OvercookedGridworld : value;
  Action : value;
  MediumLevelActionManager : value;
  NO_COUNTERS_PARAMS : value;
  OvercookedEnv : value;
  StateVisualizer : value
}.

(** Cell 1: Imports *)
Definition Cell1 : M imports :=
  perform (ImportModule "copy") ;;;
  perform (ImportModule "math") ;;;
  perform (ImportModule "os") ;;;
  gridworld <- perform (ImportFrom "overcooked_ai_py.mdp.overcooked_mdp"
                                   "OvercookedGridworld") ;;
  action <- perform (ImportFrom "overcooked_ai_py.mdp.actions" "Action") ;;
  manager <- perform (ImportFrom "overcooked_ai_py.planning.planners"
                                 "MediumLevelActionManager") ;;
  params <- perform (ImportFrom "overcooked_ai_py.planning.planners"
                                "NO_COUNTERS_PARAMS") ;;
  envcls <- perform (ImportFrom "overcooked_ai_py.mdp.overcooked_env"
                                "OvercookedEnv") ;;
  vizcls <- perform (ImportFrom
                       "overcooked_ai_py.visualization.state_visualizer"
                       "StateVisualizer") ;;
  ret (Imports gridworld action manager params envcls vizcls).

Definition layout_name : string := "asymmetric_advantages".
Definition horizon : Z := 400.

(** Cell 2: Build MDP & Env; returns [mdp], [env] and [state0]. *)
Definition Cell2 (im : imports) : M (value * value * value) :=
  mdp <- perform (CallMethod (OvercookedGridworld im) "from_layout_name"
                             [VStr layout_name] []) ;;
  env <- perform (CallMethod (OvercookedEnv im) "from_mdp"
                             [mdp] [("horizon", VInt horizon)]) ;;
  state0 <- perform (CallMethod mdp "get_standard_start_state" [] []) ;;
  ret (mdp, env, state0).

(** Cell 3, the [try] statement:
    [try: grid = mdp.terrain_mtx / except AttributeError: grid = mdp.grid] *)
Definition extract_grid (mdp : value) : M value :=
  try_except (perform (GetAttr mdp "terrain_mtx"))
             is_AttributeError
             (perform (GetAttr mdp "grid")).

(** Cell 3, the f-string [f"Grid size: {len(grid)}x{len(grid[0])}"], with
    the multiplication sign of the source. *)
Definition grid_size_text (grid : value) : M string :=
  rows <- py_len grid ;;
  row0 <- perform (GetItem grid (VInt 0)) ;;
  cols <- py_len row0 ;;
  ret ("Grid size: " ++ format_int rows ++ "×" ++ format_int cols)%string.

(** Cell 3: Extract the layout grid; returns [grid]. *)
Definition Cell3 (mdp : value) : M value :=
  grid <- extract_grid mdp ;;
  text <- grid_size_text grid ;;
  print [VStr text] ;;;
  display grid ;;;
  ret grid.

(** Cell 4: Render initial state inline; returns [viz]. *)
Definition Cell4 (im : imports) (state0 grid : value) : M value :=
  viz <- perform (Call (StateVisualizer im) []
                       [("tile_size", VInt 60);
                        ("is_rendering_action_probs", VBool false)]) ;;
  shown <- perform (CallMethod viz "display_rendered_state" [state0]
                               [("grid", grid);
                                ("ipython_display", VBool true)]) ;;
  display shown ;;;
  ret viz.

(** Cell 5: Step the MDP directly; returns [next_state] and [info]. *)
Definition Cell5 (im : imports) (mdp state0 grid viz : value)
    : M (value * value) :=
  a0 <- perform (GetAttr (Action im) "INTERACT") ;;
  a1 <- perform (GetAttr (Action im) "INTERACT") ;;
  let joint_action := VTuple [a0; a1] in
  r <- perform (CallMethod mdp "get_state_transition"
                           [state0; joint_action] []) ;;
  '(next_state, info) <- unpack2 r ;;
  events <- perform (GetItem info (VStr "event_infos")) ;;
  print [VStr "Logged events:"; events] ;;;
  shown <- perform (CallMethod viz "display_rendered_state" [next_state]
                               [("grid", grid);
                                ("ipython_display", VBool true)]) ;;
  display shown ;;;
  ret (next_state, info).

(** Cell 6: Lossless encoding; returns [mask_p0] and [mask_p1]. *)
Definition Cell6 (mdp state0 : value) : M (value * value) :=
  r <- perform (CallMethod mdp "lossless_state_encoding" [state0] []) ;;
  '(mask_p0, mask_p1) <- unpack2 r ;;
  shape <- perform (GetAttr mask_p0 "shape") ;;
  print [VStr "Mask shape per player:"; shape] ;;;
  ret (mask_p0, mask_p1).

(** Cell 7: Hand-crafted encoding (requires planner); returns [mlam] and
    [features]. *)
Definition Cell7 (im : imports) (mdp state0 : value) : M (value * value) :=
  mlam <- perform (CallMethod (MediumLevelActionManager im)
                              "from_pickle_or_compute"
                              [mdp; NO_COUNTERS_PARAMS im] []) ;;
  features <- perform (CallMethod mdp "featurize_state" [state0; mlam]
                                  [("num_pots", VInt 2)]) ;;
  f0 <- perform (GetItem features (VInt 0)) ;;
  shape <- perform (GetAttr f0 "shape") ;;
  n <- perform (GetItem shape (VInt 0)) ;;
  print [VStr "Feature vector length per player:"; n] ;;;
  ret (mlam, features).

(** Cell 8: Compute potential; returns [phi]. *)
Definition Cell8 (mdp state0 mlam : value) : M value :=
  potential_function <- perform (GetAttr mdp "potential_function") ;;
  planner <- perform (GetAttr mlam "motion_planner") ;;
  phi <- perform (Call potential_function [state0; planner]
                       [("gamma", VFloat "0.99")]) ;;
  print [VStr "State potential:"; phi] ;;;
  ret phi.

(** Cell 9: Generate and visualize one rollout; returns [traj]. *)
Definition Cell9 (env viz : value) : M value :=
  AgentPair <- perform (ImportFrom "overcooked_ai_py.agents.agent"
                                   "AgentPair") ;;
  RandomAgent <- perform (ImportFrom "overcooked_ai_py.agents.agent"
                                     "RandomAgent") ;;
  agent0 <- perform (Call RandomAgent [] [("all_actions", VBool true)]) ;;
  agent1 <- perform (Call RandomAgent [] [("all_actions", VBool true)]) ;;
  agent_pair <- perform (Call AgentPair [agent0; agent1] []) ;;
  traj <- perform (CallMethod env "get_rollouts" [agent_pair]
                              [("num_games", VInt 1);
                               ("display", VBool false);
                               ("info", VBool true)]) ;;
  shown <- perform (CallMethod viz "display_rendered_trajectory" [traj]
                               [("trajectory_idx", VInt 0);
                                ("ipython_display", VBool true)]) ;;
  display shown ;;;
  ret traj.

(** The notebook, its cells run in order in a fresh kernel; a cell that
    raises ends the run. *)
Definition notebook : M unit :=
  im <- Cell1 ;;
  '(mdp, env, state0) <- Cell2 im ;;
  grid <- Cell3 mdp ;;
  viz <- Cell4 im state0 grid ;;
  Cell5 im mdp state0 grid viz ;;;
  Cell6 mdp state0 ;;;
  '(mlam, _) <- Cell7 im mdp state0 ;;
  Cell8 mdp state0 mlam ;;;
  Cell9 env viz ;;;
  ret tt.

(** ** Shapes of a log *)

(** A log in which every failure was handled: each operation returned,
    except reads of [terrain_mtx] that raised [AttributeError] and were
    followed at once by the read of [grid] on the same object. *)
Inductive calm : list event -> Prop :=
| calm_nil : calm []
| calm_ok o v tr : calm tr -> calm ((o, Ok v) :: tr)
| calm_fallback mdp r tr :
    calm ((GetAttr mdp "grid", r) :: tr) ->
    calm ((GetAttr mdp "terrain_mtx", Raised AttributeError)
            :: (GetAttr mdp "grid", r) :: tr).

(** A log that ends with an operation raising [e], every earlier failure
    having been handled. *)
Inductive stopped (e : exn) : list event -> Prop :=
| stopped_last o : stopped e [(o, Raised e)]
| stopped_ok o v tr : stopped e tr -> stopped e ((o, Ok v) :: tr)
| stopped_fallback mdp r tr :
    stopped e ((GetAttr mdp "grid", r) :: tr) ->
    stopped e ((GetAttr mdp "terrain_mtx", Raised AttributeError)
                 :: (GetAttr mdp "grid", r) :: tr).

(** A computation that handles no failure but the fallback: it extends the
    log by a calm stretch when it returns, and by a stretch stopped at [e]
    when it raises [e]. *)
Definition propagating {A} (m : M A) : Prop :=
  forall w, exists ext,
    trace (snd (m w)) = trace w ++ ext /\
    match fst (m w) with
    | Ok _ => calm ext
    | Raised e => stopped e ext
    end.

(** The one failure the notebook handles. *)
Definition is_fallback (ev : event) : Prop :=
  exists mdp, ev = (GetAttr mdp "terrain_mtx", Raised AttributeError).

(** What the display of a cell's last value adds to the outputs. *)
Definition shown (v : value) : list output :=
  match v with
  | VNone => []
  | _ => [Display v]
  end.

(** A computation that writes nothing. *)
Definition quiet {A} (m : M A) : Prop :=
  forall w, out (snd (m w)) = out w.

(** The start state of a grid-world in a log: a value that
    [get_standard_start_state] returned for it. *)
Definition start_state_in (tr : list event) (mdp s : value) : Prop :=
  In (CallMethod mdp "get_standard_start_state" [] [], Ok s) tr.

(** How a method call of the log is fed from earlier entries of the log:
    the state of [get_state_transition], [lossless_state_encoding] and
    [featurize_state], the environment and the agents of [get_rollouts], the
    grid of [display_rendered_state]. *)
Definition wired (tr : list event) (ev : event) : Prop :=
  match fst ev with
  | CallMethod obj name args kwargs =>
      (if String.eqb name "get_state_transition"
       then exists s action a0 a1,
              args = [s; VTuple [a0; a1]] /\ kwargs = [] /\
              start_state_in tr obj s /\
              In (GetAttr action "INTERACT", Ok a0) tr /\
              In (GetAttr action "INTERACT", Ok a1) tr
       else True) /\
      (if String.eqb name "lossless_state_encoding"
       then exists s,
              args = [s] /\ kwargs = [] /\ start_state_in tr obj s
       else True) /\
      (if String.eqb name "featurize_state"
       then exists s cls params mlam,
              args = [s; mlam] /\ kwargs = [("num_pots", VInt 2)] /\
              start_state_in tr obj s /\
              In (CallMethod cls "from_pickle_or_compute" [obj; params] [],
                  Ok mlam) tr
       else True) /\
      (if String.eqb name "get_rollouts"
       then exists cls gridworld mdp pair pair_cls agent_cls agent0 agent1,
              args = [pair] /\
              kwargs = [("num_games", VInt 1); ("display", VBool false);
                        ("info", VBool true)] /\
              In (CallMethod cls "from_mdp" [mdp] [("horizon", VInt 400)],
                  Ok obj) tr /\
              In (CallMethod gridworld "from_layout_name"
                             [VStr "asymmetric_advantages"] [], Ok mdp) tr /\
              In (Call pair_cls [agent0; agent1] [], Ok pair) tr /\
              In (Call agent_cls [] [("all_actions", VBool true)],
                  Ok agent0) tr /\
              In (Call agent_cls [] [("all_actions", VBool true)],
                  Ok agent1) tr /\
              In (ImportFrom "overcooked_ai_py.agents.agent" "AgentPair",
                  Ok pair_cls) tr /\
              In (ImportFrom "overcooked_ai_py.agents.agent" "RandomAgent",
                  Ok agent_cls) tr
       else True) /\
      (if String.eqb name "display_rendered_state"
       then exists state grid mdp attr,
              args = [state] /\
              kwargs = [("grid", grid); ("ipython_display", VBool true)] /\
              In (GetAttr mdp attr, Ok grid) tr /\
              (attr = "terrain_mtx" \/ attr = "grid")
       else True)
  | _ => True
  end.

(** The entries of a log three by three, each with the two that follow. *)
Fixpoint triples {A} (l : list A) : list (A * A * A) :=
  match l with
  | [] => []
  | a :: t =>
      match t with
      | b :: c :: _ => (a, b, c) :: triples t
      | _ => []
      end
  end.

(** What follows the lookup of [potential_function] in a log: the read of
    [motion_planner] on the planner computed for the grid-world, then the
    call of the method found, on the start state of the grid-world and the
    planner read. *)
Definition wired3 (tr : list event) (t : event * event * event) : Prop :=
  match t with
  | ((GetAttr obj name, Ok method), second, third) =>
      if String.eqb name "potential_function"
      then exists s cls params mlam planner r,
             second = (GetAttr mlam "motion_planner", Ok planner) /\
             third = (Call method [s; planner] [("gamma", VFloat "0.99")],
                      r) /\
             start_state_in tr obj s /\
             In (CallMethod cls "from_pickle_or_compute" [obj; params] [],
                 Ok mlam) tr
      else True
  | _ => True
  end.

Definition all_wired (run : result unit * world) : Prop :=
  Forall (wired (trace (snd run))) (trace (snd run)) /\
  Forall (wired3 (trace (snd run))) (triples (trace (snd run))).

(** The calls of [print] made by the cells, in order: their arguments. *)
Definition print_calls (outs : list output) : list (list value) :=
  flat_map (fun o => match o with
                     | Stdout args => [args]
                     | Display _ => []
                     end) outs.

(** The arguments of the [print] of Cell 3, and those of a [print] of a
    label and one value. *)
Definition size_line (args : list value) : Prop :=
  exists rows cols,
    args = [VStr ("Grid size: " ++ format_int rows ++ "×"
                    ++ format_int cols)%string].

Definition labelled (label : string) (args : list value) : Prop :=
  exists v, args = [VStr label; v].

(** The calls of [print] of a complete run. *)
Definition notebook_prints : list (list value -> Prop) :=
  [size_line;
   labelled "Logged events:";
   labelled "Mask shape per player:";
   labelled "Feature vector length per player:";
   labelled "State potential:"].

Definition fits (ps : list (list value -> Prop)) (calls : list (list value))
    : Prop :=
  Forall2 (fun p args => p args) ps calls.

(** A computation that only adds outputs, whose calls of [print] fit [ps]
    when it returns and a beginning of [ps] when it raises. *)
Definition emits {A} (m : M A) (ps : list (list value -> Prop)) : Prop :=
  forall w, exists ext,
    out (snd (m w)) = out w ++ ext /\
    match fst (m w) with
    | Ok _ => fits ps (print_calls ext)
    | Raised _ => exists n, fits (firstn n ps) (print_calls ext)
    end.

(** ** Composition of logs *)

Lemma calm_app (a b : list event) : calm a -> calm b -> calm (a ++ b).
Proof.
  induction 1 as [|o v tr _ IH|mdp r tr _ IH]; intros Hb; simpl.
  - exact Hb.
  - apply calm_ok, IH, Hb.
  - apply calm_fallback. exact (IH Hb).
Qed.

Lemma calm_stopped_app (e : exn) (a b : list event) :
  calm a -> stopped e b -> stopped e (a ++ b).
Proof.
  induction 1 as [|o v tr _ IH|mdp r tr _ IH]; intros Hb; simpl.
  - exact Hb.
  - apply stopped_ok, IH, Hb.
  - apply stopped_fallback. exact (IH Hb).
Qed.

(** In a calm log every failure is the fallback, and the read of [grid]
    follows it. *)
Lemma calm_failure (tr : list event) :
  calm tr ->
  forall i o e, nth_error tr i = Some (o, Raised e) ->
  exists mdp r,
    o = GetAttr mdp "terrain_mtx" /\ e = AttributeError /\
    nth_error tr (S i) = Some (GetAttr mdp "grid", r).
Proof.
  induction 1 as [|o' v tr _ IH|mdp r tr _ IH]; intros i o e Hi.
  - destruct i; discriminate.
  - destruct i as [|i]; simpl in Hi; [discriminate|].
    exact (IH i o e Hi).
  - destruct i as [|i]; simpl in Hi.
    + injection Hi as <- <-. exists mdp, r. repeat split.
    + exact (IH i o e Hi).
Qed.

(** In a stopped log a failure is the last entry, or the fallback. *)
Lemma stopped_failure (e : exn) (tr : list event) :
  stopped e tr ->
  forall i o e', nth_error tr i = Some (o, Raised e') ->
  (S i = List.length tr /\ e' = e) \/
  (exists mdp r,
     o = GetAttr mdp "terrain_mtx" /\ e' = AttributeError /\
     nth_error tr (S i) = Some (GetAttr mdp "grid", r)).
Proof.
  induction 1 as [o'|o' v tr _ IH|mdp r tr _ IH]; intros i o e' Hi.
  - destruct i as [|i]; simpl in Hi.
    + injection Hi as <- <-. left. split; reflexivity.
    + destruct i; discriminate.
  - destruct i as [|i]; simpl in Hi; [discriminate|].
    destruct (IH i o e' Hi) as [[Hlen He]|Hfb].
    + left. simpl. split; [congruence | exact He].
    + right. exact Hfb.
  - destruct i as [|i]; simpl in Hi.
    + injection Hi as <- <-. right. exists mdp, r. repeat split.
    + destruct (IH i o e' Hi) as [[Hlen He]|Hfb].
      * left. split; [simpl in *; congruence | exact He].
      * right. exact Hfb.
Qed.

Lemma stopped_last_entry (e : exn) (tr : list event) :
  stopped e tr -> exists o, nth_error tr (pred (List.length tr)) = Some (o, Raised e).
Proof.
  induction 1 as [o|o v tr H IH|mdp r tr H IH].
  - exists o. reflexivity.
  - destruct IH as [o' IH]. exists o'.
    destruct tr as [|ev tr]; [inversion H|]. exact IH.
  - destruct IH as [o' IH]. exists o'. exact IH.
Qed.

(** ** Every part of the notebook propagates *)

Lemma propagating_ret {A} (a : A) : propagating (ret a).
Proof.
  intros w. exists []. simpl. rewrite app_nil_r. split; [reflexivity|constructor].
Qed.

Lemma propagating_emit (o : output) : propagating (emit o).
Proof.
  intros w. exists []. simpl. rewrite app_nil_r. split; [reflexivity|constructor].
Qed.

Lemma propagating_print (args : list value) : propagating (print args).
Proof. apply propagating_emit. Qed.

Lemma propagating_display (v : value) : propagating (display v).
Proof.
  destruct v; first [apply propagating_ret | apply propagating_emit].
Qed.

Lemma propagating_perform (o : op) : propagating (perform o).
Proof.
  intros w. exists [(o, outcome (trace w) o)]. unfold perform.
  cbn -[outcome]. split; [reflexivity|].
  destruct (outcome (trace w) o); repeat constructor.
Qed.

Lemma propagating_bind {A B} (m : M A) (f : A -> M B) :
  propagating m -> (forall a, propagating (f a)) -> propagating (bind m f).
Proof.
  intros Hm Hf w. unfold bind.
  destruct (Hm w) as [ext1 [Ht1 Hs1]].
  destruct (m w) as [[a|e] w1]; simpl in *.
  - destruct (Hf a w1) as [ext2 [Ht2 Hs2]].
    exists (ext1 ++ ext2). rewrite Ht2, Ht1, app_assoc. split; [reflexivity|].
    destruct (fst (f a w1)).
    + apply calm_app; assumption.
    + apply calm_stopped_app; assumption.
  - exists ext1. split; assumption.
Qed.

Lemma propagating_extract_grid (mdp : value) : propagating (extract_grid mdp).
Proof.
  intros w. unfold extract_grid, try_except, perform. cbn -[outcome].
  destruct (outcome (trace w) (GetAttr mdp "terrain_mtx")) as [v|e] eqn:E1.
  - exists [(GetAttr mdp "terrain_mtx", Ok v)].
    split; [reflexivity|repeat constructor].
  - destruct e; cbn -[outcome];
      try (eexists [(GetAttr mdp "terrain_mtx", Raised _)];
           split; [reflexivity|constructor]).
    match goal with |- context [outcome ?t (GetAttr mdp "grid")] =>
      set (r := outcome t (GetAttr mdp "grid")) end.
    exists [(GetAttr mdp "terrain_mtx", Raised AttributeError);
            (GetAttr mdp "grid", r)].
    rewrite <- app_assoc. split; [reflexivity|].
    destruct r; repeat constructor.
Qed.

Create HintDb propagate.

#[local] Hint Resolve propagating_ret propagating_emit propagating_print
  propagating_display
  propagating_perform propagating_extract_grid : propagate.

Ltac propagate :=
  repeat first
    [ solve [auto with propagate]
    | apply propagating_bind; [|intros]
    | match goal with
      | p : (_ * _)%type |- _ => destruct p
      end ].

Lemma propagating_py_len (v : value) : propagating (py_len v).
Proof. unfold py_len. propagate. Qed.

Lemma propagating_unpack2 (v : value) : propagating (unpack2 v).
Proof. unfold unpack2. propagate. Qed.

#[local] Hint Resolve propagating_py_len propagating_unpack2 : propagate.

Lemma propagating_grid_size_text (grid : value) :
  propagating (grid_size_text grid).
Proof. unfold grid_size_text. propagate. Qed.

#[local] Hint Resolve propagating_grid_size_text : propagate.

Lemma propagating_Cell1 : propagating Cell1.
Proof. unfold Cell1. propagate. Qed.

Lemma propagating_Cell2 im : propagating (Cell2 im).
Proof. unfold Cell2. propagate. Qed.

Lemma propagating_Cell3 mdp : propagating (Cell3 mdp).
Proof. unfold Cell3. propagate. Qed.

Lemma propagating_Cell4 im state0 grid : propagating (Cell4 im state0 grid).
Proof. unfold Cell4. propagate. Qed.

Lemma propagating_Cell5 im mdp state0 grid viz :
  propagating (Cell5 im mdp state0 grid viz).
Proof. unfold Cell5. propagate. Qed.

Lemma propagating_Cell6 mdp state0 : propagating (Cell6 mdp state0).
Proof. unfold Cell6. propagate. Qed.

Lemma propagating_Cell7 im mdp state0 : propagating (Cell7 im mdp state0).
Proof. unfold Cell7. propagate. Qed.

Lemma propagating_Cell8 mdp state0 mlam : propagating (Cell8 mdp state0 mlam).
Proof. unfold Cell8. propagate. Qed.

Lemma propagating_Cell9 env viz : propagating (Cell9 env viz).
Proof. unfold Cell9. propagate. Qed.

#[local] Hint Resolve propagating_Cell1 propagating_Cell2 propagating_Cell3
  propagating_Cell4 propagating_Cell5 propagating_Cell6 propagating_Cell7
  propagating_Cell8 propagating_Cell9 : propagate.

Lemma propagating_notebook : propagating notebook.
Proof. unfold notebook. propagate. Qed.

(** A failure in the log of a whole run either ended the run, raising the
    same exception, or is the fallback of Cell 3. *)
Lemma notebook_failures (i : nat) (o : op) (e : exn) :
  nth_error (trace (snd (notebook init))) i = Some (o, Raised e) ->
  (S i = List.length (trace (snd (notebook init))) /\
   fst (notebook init) = Raised e) \/
  (exists mdp r,
     o = GetAttr mdp "terrain_mtx" /\ e = AttributeError /\
     nth_error (trace (snd (notebook init))) (S i)
       = Some (GetAttr mdp "grid", r)).
Proof.
  destruct (propagating_notebook init) as [ext [Ht Hs]].
  simpl in Ht. rewrite Ht. intros Hi.
  destruct (fst (notebook init)) as [u|e0].
  - right. exact (calm_failure ext Hs i o e Hi).
  - destruct (stopped_failure e0 ext Hs i o e Hi) as [[Hlen He]|Hfb].
    + left. split; [exact Hlen | congruence].
    + right. exact Hfb.
Qed.

(** The equation of the [try] statement of Cell 3. *)
Lemma extract_grid_eq (mdp : value) (w : world) :
  let first := outcome (trace w) (GetAttr mdp "terrain_mtx") in
  let tr1 := trace w ++ [(GetAttr mdp "terrain_mtx", first)] in
  let second := outcome tr1 (GetAttr mdp "grid") in
  extract_grid mdp w =
    if match first with Raised e => is_AttributeError e | Ok _ => false end
    then (second, World (tr1 ++ [(GetAttr mdp "grid", second)]) (out w))
    else (first, World tr1 (out w)).
Proof.
  unfold extract_grid, try_except, perform. cbn -[outcome].
  destruct (outcome (trace w) (GetAttr mdp "terrain_mtx")) as [v|e];
    [reflexivity|].
  destruct e; reflexivity.
Qed.

(** C1: extracting the layout grid reads [terrain_mtx] of the grid-world
    first; it reads [grid] if and only if that first read raised
    [AttributeError], and the grid is then whatever the second read gives,
    otherwise what the first gave (a value, or another exception, which is
    raised).  In a run of the whole notebook this is the only handling there
    is: a failed operation either ended the run with its exception, or it is
    this read of [terrain_mtx], followed at once by the read of [grid]. *)
Theorem extract_grid_fallback (mdp : value) (w : world) :
  let first := outcome (trace w) (GetAttr mdp "terrain_mtx") in
  let tr1 := trace w ++ [(GetAttr mdp "terrain_mtx", first)] in
  (exists rest,
     trace (snd (extract_grid mdp w)) = tr1 ++ rest /\
     out (snd (extract_grid mdp w)) = out w /\
     (In (GetAttr mdp "grid") (map fst rest) <->
      first = Raised AttributeError) /\
     (first = Raised AttributeError ->
      rest = [(GetAttr mdp "grid", outcome tr1 (GetAttr mdp "grid"))] /\
      fst (extract_grid mdp w) = outcome tr1 (GetAttr mdp "grid")) /\
     (first <> Raised AttributeError ->
      rest = [] /\ fst (extract_grid mdp w) = first)) /\
  (forall i o e,
     nth_error (trace (snd (notebook init))) i = Some (o, Raised e) ->
     (S i = List.length (trace (snd (notebook init))) /\
      fst (notebook init) = Raised e) \/
     (exists obj r,
        o = GetAttr obj "terrain_mtx" /\ e = AttributeError /\
        nth_error (trace (snd (notebook init))) (S i)
          = Some (GetAttr obj "grid", r))).
Proof.
  cbv zeta. split; [|exact notebook_failures].
  pose proof (extract_grid_eq mdp w) as Heq. cbv zeta in Heq.
  destruct (outcome (trace w) (GetAttr mdp "terrain_mtx")) as [v|e] eqn:E1.
  - exists []. rewrite Heq. cbn -[outcome]. rewrite app_nil_r.
    repeat split; try discriminate; try contradiction.
  - destruct e;
      try (exists []; rewrite Heq; cbn -[outcome]; rewrite app_nil_r;
           repeat split; try discriminate; try contradiction;
           intros H; exfalso; apply H; reflexivity).
    eexists. rewrite Heq. cbn -[outcome].
    split; [reflexivity|]. split; [reflexivity|].
    split; [split; [reflexivity | intros _; left; reflexivity]|].
    split; [intros _; split; reflexivity|].
    intros H. exfalso. apply H. reflexivity.
Qed.

(** C7: in a run of the whole notebook, an operation that raises -- other
    than the read of [terrain_mtx] raising [AttributeError] -- is the last
    operation performed, and the run ends raising that same exception; and
    whenever the run ends with an exception, it is the one raised by the last
    operation performed. *)
Theorem library_failures_propagate :
  (forall i o e,
     nth_error (trace (snd (notebook init))) i = Some (o, Raised e) ->
     ~ is_fallback (o, Raised e) ->
     fst (notebook init) = Raised e /\
     S i = List.length (trace (snd (notebook init)))) /\
  (forall e,
     fst (notebook init) = Raised e ->
     exists o,
       nth_error (trace (snd (notebook init)))
                 (pred (List.length (trace (snd (notebook init)))))
         = Some (o, Raised e)).
Proof.
  split.
  - intros i o e Hi Hnf.
    destruct (notebook_failures i o e Hi) as [[Hlen Hr]|[mdp [r [Ho [He _]]]]].
    + split; [exact Hr | exact Hlen].
    + exfalso. apply Hnf. exists mdp. subst. reflexivity.
  - intros e He.
    destruct (propagating_notebook init) as [ext [Ht Hs]].
    simpl in Ht. rewrite Ht. rewrite He in Hs.
    exact (stopped_last_entry e ext Hs).
Qed.

(** The size line of Cell 3 on a list of lists: [len(grid[0])] needs a first
    row. *)
Lemma py_index_head (x : value) (l : list value) : py_index (x :: l) 0 = Ok x.
Proof.
  unfold py_index. cbn [List.length].
  replace (0 <? Z.of_nat (S (List.length l))) with true
    by (symmetry; apply Z.ltb_lt; lia).
  reflexivity.
Qed.

Lemma grid_size_text_rows (row0 : list string) (rows : list (list string))
    (w : world) :
  fst (grid_size_text (grid_of (row0 :: rows)) w) =
    Ok ("Grid size: " ++ format_int (Z.of_nat (S (List.length rows))) ++ "×"
          ++ format_int (Z.of_nat (List.length row0)))%string.
Proof.
  unfold grid_size_text, py_len, bind, perform, ret, grid_of.
  cbn [outcome is_obj items_of map fst snd trace out index_of_key].
  rewrite py_index_head.
  cbn [outcome is_obj items_of fst snd trace out int_of List.length].
  rewrite !length_map. reflexivity.
Qed.

Lemma grid_size_text_empty (w : world) :
  fst (grid_size_text (grid_of []) w) = Raised IndexError.
Proof. reflexivity. Qed.

(** The grid displayed by Cell 3 in the saved notebook has five rows, so at
    least one; each row has nine cells, each cell one character; and the size
    line of Cell 3, computed on it from [len(grid)] and [len(grid[0])], is
    the recorded [Grid size: 5x9] (with the multiplication sign), whatever
    the library does. *)
Theorem recorded_grid_rectangular :
  recorded_rows <> [] /\
  List.length recorded_rows = 5%nat /\
  Forall (fun row => List.length row = 9%nat) recorded_rows /\
  Forall (Forall (fun c => List.length (code_points c) = 1%nat))
         recorded_rows /\
  forall w : world,
    fst (grid_size_text recorded_grid w) = Ok recorded_grid_size.
Proof.
  split; [discriminate|].
  split; [reflexivity|].
  split; [repeat constructor|].
  split; [repeat constructor|].
  intros w. unfold recorded_grid, recorded_rows.
  rewrite grid_size_text_rows. reflexivity.
Qed.


(** ** What the notebook passes to the library *)

Lemma bind_perform {A} (o : op) (f : value -> M A) (w : world) :
  bind (perform o) f w =
    match outcome (trace w) o with
    | Ok v => f v (World (trace w ++ [(o, Ok v)]) (out w))
    | Raised e => (Raised e, World (trace w ++ [(o, Raised e)]) (out w))
    end.
Proof.
  unfold bind, perform. destruct (outcome (trace w) o); reflexivity.
Qed.

(** Cell 2 builds the grid-world from the layout name, the environment from
    that grid-world with [horizon=400], and asks that grid-world for its
    start state. *)
Lemma Cell2_log (im : imports) (w : world) (mdp env : value) :
  let build := CallMethod (OvercookedGridworld im) "from_layout_name"
                          [VStr "asymmetric_advantages"] [] in
  let wrap := CallMethod (OvercookedEnv im) "from_mdp" [mdp]
                         [("horizon", VInt 400)] in
  let start := CallMethod mdp "get_standard_start_state" [] [] in
  outcome (trace w) build = Ok mdp ->
  outcome (trace w ++ [(build, Ok mdp)]) wrap = Ok env ->
  exists r,
    trace (snd (Cell2 im w))
      = trace w ++ [(build, Ok mdp); (wrap, Ok env); (start, r)] /\
    fst (Cell2 im w)
      = match r with
        | Ok state0 => Ok (mdp, env, state0)
        | Raised e => Raised e
        end.
Proof.
  intros build wrap start H1 H2.
  unfold Cell2, layout_name, horizon. fold build.
  rewrite bind_perform, H1. fold wrap.
  rewrite bind_perform. cbn [trace out]. rewrite H2. fold start.
  rewrite bind_perform. cbn [trace out]. rewrite <- !app_assoc.
  match goal with
  | |- context [match ?r with Ok _ => _ | Raised _ => _ end] =>
      exists r; destruct r
  end; unfold ret; cbn [fst snd trace]; rewrite <- !app_assoc;
    split; reflexivity.
Qed.

(** Cell 7 computes the planner first and hands it to [featurize_state]
    with the start state; when the planner cannot be computed,
    [featurize_state] is not called. *)
Lemma Cell7_log (im : imports) (mdp state0 : value) (w : world) :
  let plan := CallMethod (MediumLevelActionManager im)
                         "from_pickle_or_compute"
                         [mdp; NO_COUNTERS_PARAMS im] [] in
  match outcome (trace w) plan with
  | Ok mlam =>
      let featurize := CallMethod mdp "featurize_state" [state0; mlam]
                                  [("num_pots", VInt 2)] in
      exists rest,
        trace (snd (Cell7 im mdp state0 w))
          = trace w ++ (plan, Ok mlam)
              :: (featurize, outcome (trace w ++ [(plan, Ok mlam)]) featurize)
              :: rest
  | Raised e =>
      Cell7 im mdp state0 w
        = (Raised e, World (trace w ++ [(plan, Raised e)]) (out w))
  end.
Proof.
  intros plan. unfold Cell7. fold plan. rewrite bind_perform.
  destruct (outcome (trace w) plan) as [mlam|e]; [|reflexivity].
  set (featurize := CallMethod mdp "featurize_state" _ _).
  rewrite bind_perform. cbn [trace out].
  destruct (outcome (trace w ++ [(plan, Ok mlam)]) featurize)
    as [features|e].
  - match goal with
    | |- exists rest, trace (snd (?m ?w1)) = _ =>
        assert (P : propagating m) by propagate;
        destruct (P w1) as [ext [Ht _]]
    end.
    exists ext. rewrite Ht. cbn [trace]. rewrite <- !app_assoc. reflexivity.
  - exists []. cbn [snd trace]. rewrite <- !app_assoc. reflexivity.
Qed.

(** The shape printed by Cell 6 for the first player's mask lists the columns
    of the displayed grid, then its rows, then 26 channels. *)
Lemma recorded_mask_shape_transposed :
  recorded_mask_shape =
    VTuple [VInt (Z.of_nat (List.length (hd [] recorded_rows)));
            VInt (Z.of_nat (List.length recorded_rows));
            VInt 26].
Proof. reflexivity. Qed.


(** ** The cells, one by one *)

Lemma bind_bind {A B C} (m : M A) (f : A -> M B) (g : B -> M C) (w : world) :
  bind (bind m f) g w = bind m (fun a => bind (f a) g) w.
Proof. unfold bind. destruct (m w) as [[a|e] w']; reflexivity. Qed.

Lemma bind_ret {A B} (a : A) (f : A -> M B) (w : world) :
  bind (ret a) f w = f a w.
Proof. reflexivity. Qed.

Lemma bind_print {A} (args : list value) (f : unit -> M A) (w : world) :
  bind (print args) f w = f tt (World (trace w) (out w ++ [Stdout args])).
Proof. reflexivity. Qed.

Lemma bind_display {A} (v : value) (f : unit -> M A) (w : world) :
  bind (display v) f w = f tt (World (trace w) (out w ++ shown v)).
Proof.
  destruct w as [tr o]. destruct v; cbn; rewrite ?app_nil_r; reflexivity.
Qed.

Lemma quiet_perform (o : op) : quiet (perform o).
Proof. intros w. reflexivity. Qed.

Lemma quiet_ret {A} (a : A) : quiet (ret a).
Proof. intros w. reflexivity. Qed.

Lemma quiet_bind {A B} (m : M A) (f : A -> M B) :
  quiet m -> (forall a, quiet (f a)) -> quiet (bind m f).
Proof.
  intros Hm Hf w. unfold bind. specialize (Hm w).
  destruct (m w) as [[a|e] w1]; simpl in *.
  - rewrite Hf. exact Hm.
  - exact Hm.
Qed.

Lemma quiet_extract_grid (mdp : value) : quiet (extract_grid mdp).
Proof.
  intros w. rewrite extract_grid_eq. cbv zeta.
  destruct (outcome (trace w) (GetAttr mdp "terrain_mtx")) as [v|e];
    [reflexivity|].
  destruct (is_AttributeError e); reflexivity.
Qed.

Lemma quiet_grid_size_text (grid : value) : quiet (grid_size_text grid).
Proof.
  unfold grid_size_text, py_len.
  repeat first [ apply quiet_bind; [|intros] | apply quiet_perform
               | apply quiet_ret ].
Qed.

(** Cell 3 on a layout given as a list of lists with a first row: the line
    printed gives the number of rows and the length of the first row,
    whatever the lengths of the other rows; then the grid is displayed, and
    it is the value of the cell. *)
Theorem Cell3_reports_first_row (mdp : value) (w : world)
    (row0 : list string) (rows : list (list string)) :
  fst (extract_grid mdp w) = Ok (grid_of (row0 :: rows)) ->
  fst (Cell3 mdp w) = Ok (grid_of (row0 :: rows)) /\
  out (snd (Cell3 mdp w)) =
    out w ++
    [Stdout [VStr ("Grid size: "
                   ++ format_int (Z.of_nat (S (List.length rows)))
                   ++ "×" ++ format_int (Z.of_nat (List.length row0)))%string];
     Display (grid_of (row0 :: rows))].
Proof.
  intros Hg.
  pose proof (quiet_extract_grid mdp w) as Hq.
  unfold Cell3, bind.
  destruct (extract_grid mdp w) as [[g|e] w1]; cbn [fst snd] in Hg, Hq;
    [|discriminate].
  injection Hg as ->.
  pose proof (grid_size_text_rows row0 rows w1) as Ht.
  pose proof (quiet_grid_size_text (grid_of (row0 :: rows)) w1) as Hq1.
  destruct (grid_size_text (grid_of (row0 :: rows)) w1) as [[t|e] w2];
    cbn [fst snd] in Ht, Hq1; [|discriminate].
  injection Ht as ->.
  unfold print, display, grid_of. unfold emit, ret. cbn [fst snd out trace].
  rewrite Hq1, Hq, <- app_assoc. split; reflexivity.
Qed.


(** Cell 3 on a layout without rows: [len(grid)] is computed, [grid[0]]
    raises [IndexError], and nothing is printed or displayed. *)
Theorem Cell3_empty_grid (mdp : value) (w : world) :
  fst (extract_grid mdp w) = Ok (VList []) ->
  fst (Cell3 mdp w) = Raised IndexError /\
  out (snd (Cell3 mdp w)) = out w /\
  exists pre,
    trace (snd (Cell3 mdp w)) =
      pre ++ [(Len (VList []), Ok (VInt 0));
              (GetItem (VList []) (VInt 0), Raised IndexError)].
Proof.
  intros Hg.
  pose proof (quiet_extract_grid mdp w) as Hq.
  unfold Cell3, bind.
  destruct (extract_grid mdp w) as [[g|e] w1]; cbn [fst snd] in Hg, Hq;
    [|discriminate].
  injection Hg as ->. cbn. repeat split; [exact Hq|].
  exists (trace w1). rewrite <- app_assoc. reflexivity.
Qed.

(** Cell 3 when the grid-world has neither attribute: the failure of the
    second read is raised, after these two reads and nothing else, and
    nothing is printed or displayed. *)
Theorem Cell3_fallback_fails (mdp : value) (w : world) (e : exn) :
  let first := (GetAttr mdp "terrain_mtx", Raised AttributeError) in
  outcome (trace w) (GetAttr mdp "terrain_mtx") = Raised AttributeError ->
  outcome (trace w ++ [first]) (GetAttr mdp "grid") = Raised e ->
  Cell3 mdp w =
    (Raised e,
     World (trace w ++ [first; (GetAttr mdp "grid", Raised e)]) (out w)).
Proof.
  intros first H1 H2. unfold Cell3. unfold bind at 1.
  rewrite extract_grid_eq. cbv zeta. rewrite H1. cbn -[outcome].
  fold first. rewrite H2, <- app_assoc. reflexivity.
Qed.

(** Cell 6 when the encoding yields a built-in sequence of some other number
    of masks than two: the unpacking raises [ValueError]; no shape is read
    and nothing is printed. *)
Theorem Cell6_wrong_count (mdp state0 : value) (w : world) (r : value)
    (l : list value) :
  let encode := CallMethod mdp "lossless_state_encoding" [state0] [] in
  outcome (trace w) encode = Ok r ->
  items_of r = Some l ->
  List.length l <> 2%nat ->
  Cell6 mdp state0 w =
    (Raised ValueError,
     World (trace w ++ [(encode, Ok r); (Unpack r 2, Raised ValueError)])
           (out w)).
Proof.
  intros encode H1 Hl Hn. unfold Cell6, unpack2. fold encode.
  rewrite bind_perform, H1, bind_bind, bind_perform. cbn [trace out].
  assert (Hu : outcome (trace w ++ [(encode, Ok r)]) (Unpack r 2)
               = Raised ValueError).
  { unfold outcome. destruct r; try discriminate Hl; cbn [is_obj];
      rewrite Hl; unfold check_unpack;
      destruct (Nat.eqb_spec (List.length l) 2); congruence. }
  rewrite Hu, <- app_assoc. reflexivity.
Qed.



(** ** The whole run, case by case *)

Lemma bind_extract_grid {A} (mdp : value) (f : value -> M A) (w : world) :
  bind (extract_grid mdp) f w =
    match outcome (trace w) (GetAttr mdp "terrain_mtx") with
    | Ok v =>
        f v (World (trace w ++ [(GetAttr mdp "terrain_mtx", Ok v)]) (out w))
    | Raised e =>
        if is_AttributeError e
        then bind (perform (GetAttr mdp "grid")) f
               (World (trace w ++ [(GetAttr mdp "terrain_mtx", Raised e)])
                      (out w))
        else (Raised e,
              World (trace w ++ [(GetAttr mdp "terrain_mtx", Raised e)])
                    (out w))
    end.
Proof.
  unfold bind at 1. rewrite extract_grid_eq. cbv zeta.
  destruct (outcome (trace w) (GetAttr mdp "terrain_mtx")) as [v|e];
    [reflexivity|].
  destruct (is_AttributeError e); reflexivity.
Qed.

Ltac run_step :=
  first
    [ rewrite bind_bind
    | rewrite bind_ret
    | rewrite bind_print
    | rewrite bind_display
    | rewrite bind_perform; cbn [trace out];
      match goal with
      | |- context [match outcome ?t ?o with Ok _ => _ | Raised _ => _ end] =>
          destruct (outcome t o)
      end
    | rewrite bind_extract_grid; cbn [trace out];
      match goal with
      | |- context [match outcome ?t ?o with Ok _ => _ | Raised _ => _ end] =>
          let e := fresh "e" in
          destruct (outcome t o) as [?|e];
          [|destruct e; cbn [is_AttributeError]]
      end
    | progress cbn beta iota ].

Ltac run_notebook :=
  unfold notebook, Cell1, Cell2, Cell3, Cell4, Cell5, Cell6, Cell7, Cell8,
    Cell9, grid_size_text, py_len, unpack2, init;
  repeat run_step.

Ltac find_entry :=
  solve [repeat first [ reflexivity | left; reflexivity | right ]].

Ltac wired_entry :=
  cbv beta iota delta [wired wired3 start_state_in fst String.eqb Ascii.eqb
                       Bool.eqb];
  repeat split;
  try (repeat eexists; find_entry).

Lemma notebook_wired : all_wired (notebook init).
Proof.
  run_notebook;
    unfold all_wired, ret; cbn [fst snd trace app triples];
    (split; repeat (apply Forall_cons; [wired_entry|]); apply Forall_nil).
Qed.


(** How the state, the environment and the grid travel through a run. *)


(** The rollouts of Cell 9 are asked, for one game, from the environment
    that [from_mdp] returned for [horizon=400] and the grid-world of the
    layout [asymmetric_advantages], and for the one agent pair that
    [AgentPair] returned for two agents, each returned by
    [RandomAgent(all_actions=True)], both classes being the ones imported
    in Cell 9. *)
Theorem rollout_on_built_env (env : value) (args : list value)
    (kwargs : list (string * value)) (r : result value) :
  let tr := trace (snd (notebook init)) in
  In (CallMethod env "get_rollouts" args kwargs, r) tr ->
  exists cls gridworld mdp pair pair_cls agent_cls agent0 agent1,
    args = [pair] /\
    kwargs = [("num_games", VInt 1); ("display", VBool false);
              ("info", VBool true)] /\
    In (CallMethod cls "from_mdp" [mdp] [("horizon", VInt 400)], Ok env) tr /\
    In (CallMethod gridworld "from_layout_name"
                   [VStr "asymmetric_advantages"] [], Ok mdp) tr /\
    In (Call pair_cls [agent0; agent1] [], Ok pair) tr /\
    In (Call agent_cls [] [("all_actions", VBool true)], Ok agent0) tr /\
    In (Call agent_cls [] [("all_actions", VBool true)], Ok agent1) tr /\
    In (ImportFrom "overcooked_ai_py.agents.agent" "AgentPair", Ok pair_cls)
       tr /\
    In (ImportFrom "overcooked_ai_py.agents.agent" "RandomAgent",
        Ok agent_cls) tr.
Proof.
  intros tr Hin.
  destruct notebook_wired as [Hw _].
  rewrite Forall_forall in Hw. specialize (Hw _ Hin).
  unfold wired in Hw. cbn [fst] in Hw.
  exact (proj1 (proj2 (proj2 (proj2 Hw)))).
Qed.

(** Both renderings of a state are given the grid that Cell 3 extracted:
    the value read from [terrain_mtx], or from [grid]. *)
Theorem rendering_uses_extracted_grid (viz : value) (args : list value)
    (kwargs : list (string * value)) (r : result value) :
  In (CallMethod viz "display_rendered_state" args kwargs, r)
     (trace (snd (notebook init))) ->
  exists state grid mdp attr,
    args = [state] /\
    kwargs = [("grid", grid); ("ipython_display", VBool true)] /\
    In (GetAttr mdp attr, Ok grid) (trace (snd (notebook init))) /\
    (attr = "terrain_mtx" \/ attr = "grid").
Proof.
  intros Hin.
  destruct notebook_wired as [Hw _].
  rewrite Forall_forall in Hw. specialize (Hw _ Hin).
  unfold wired in Hw. cbn [fst] in Hw.
  exact (proj2 (proj2 (proj2 (proj2 Hw)))).
Qed.

(** ** What a run prints *)

Lemma firstn_app_left {A} (ps qs : list A) (n : nat) :
  exists k, firstn k (ps ++ qs) = firstn n ps.
Proof.
  destruct (Nat.le_gt_cases n (List.length ps)) as [Hle|Hgt].
  - exists n. rewrite firstn_app.
    replace (n - List.length ps)%nat with 0%nat by lia.
    cbn [firstn]. apply app_nil_r.
  - exists (List.length ps). rewrite firstn_app, firstn_all, Nat.sub_diag.
    cbn [firstn]. rewrite app_nil_r. symmetry. apply firstn_all2. lia.
Qed.

Lemma emits_bind {A B} (m : M A) (f : A -> M B)
    (ps qs : list (list value -> Prop)) :
  emits m ps -> (forall a, emits (f a) qs) -> emits (bind m f) (ps ++ qs).
Proof.
  intros Hm Hf w. unfold bind.
  destruct (Hm w) as [e1 [H1 S1]].
  destruct (m w) as [[a|e] w1]; cbn [fst snd] in *.
  - destruct (Hf a w1) as [e2 [H2 S2]].
    exists (e1 ++ e2). rewrite H2, H1, app_assoc. split; [reflexivity|].
    unfold print_calls in *. rewrite flat_map_app.
    destruct (fst (f a w1)).
    + apply Forall2_app; assumption.
    + destruct S2 as [n S2]. exists (List.length ps + n)%nat.
      rewrite firstn_app_2. apply Forall2_app; assumption.
  - exists e1. split; [exact H1|].
    destruct S1 as [n S1]. destruct (firstn_app_left ps qs n) as [k Hk].
    exists k. unfold fits. rewrite Hk. exact S1.
Qed.

Lemma emits_bind_silent {A B} (m : M A) (f : A -> M B)
    (qs : list (list value -> Prop)) :
  emits m [] -> (forall a, emits (f a) qs) -> emits (bind m f) qs.
Proof. exact (emits_bind m f [] qs). Qed.

Lemma emits_bind_line {A B} (m : M A) (f : A -> M B)
    (p : list value -> Prop) (qs : list (list value -> Prop)) :
  emits m [p] -> (forall a, emits (f a) qs) -> emits (bind m f) (p :: qs).
Proof. exact (emits_bind m f [p] qs). Qed.

Lemma bind_cong {A B} (m : M A) (f g : A -> M B) (w : world) :
  (forall a w', f a w' = g a w') -> bind m f w = bind m g w.
Proof.
  intros E. unfold bind. destruct (m w) as [[a|e] w1]; [apply E|reflexivity].
Qed.

Lemma emits_ext {A} (m m' : M A) (ps : list (list value -> Prop)) :
  (forall w, m w = m' w) -> emits m' ps -> emits m ps.
Proof. intros E H w. rewrite E. exact (H w). Qed.

Lemma emits_quiet {A} (m : M A) : quiet m -> emits m [].
Proof.
  intros Hq w. exists []. rewrite app_nil_r. split; [apply Hq|].
  destruct (fst (m w)); [constructor|]. exists 0%nat. constructor.
Qed.

Lemma emits_ret {A} (a : A) : emits (ret a) [].
Proof. apply emits_quiet, quiet_ret. Qed.

Lemma emits_perform (o : op) : emits (perform o) [].
Proof. apply emits_quiet, quiet_perform. Qed.

Lemma emits_extract_grid (mdp : value) : emits (extract_grid mdp) [].
Proof. apply emits_quiet, quiet_extract_grid. Qed.

Lemma emits_display (v : value) : emits (display v) [].
Proof.
  intros w. exists (shown v).
  destruct v; cbn; rewrite ?app_nil_r; split; constructor.
Qed.

Lemma emits_print (p : list value -> Prop) (args : list value) :
  p args -> emits (print args) [p].
Proof.
  intros Hp w. exists [Stdout args]. split; [reflexivity|].
  cbn. repeat constructor. exact Hp.
Qed.

Lemma emits_print_labelled (label : string) (v : value) :
  emits (print [VStr label; v]) [labelled label].
Proof. apply emits_print. exists v. reflexivity. Qed.

Lemma emits_print_size (rows cols : Z) :
  emits (print [VStr ("Grid size: " ++ format_int rows ++ "×"
                        ++ format_int cols)%string]) [size_line].
Proof. apply emits_print. exists rows, cols. reflexivity. Qed.

Create HintDb emit.

#[local] Hint Resolve emits_ret emits_perform emits_extract_grid
  emits_display emits_print_labelled emits_print_size : emit.

Ltac emitting :=
  repeat first
    [ solve [auto with emit]
    | match goal with
      | p : (_ * _)%type |- _ => destruct p
      end
    | apply emits_bind_silent; [solve [emitting]|intros]
    | apply emits_bind_line; [solve [emitting]|intros] ].

Lemma emits_Cell3 (mdp : value) : emits (Cell3 mdp) [size_line].
Proof.
  apply emits_ext with
    (m' := bind (extract_grid mdp) (fun grid =>
           bind (perform (Len grid)) (fun n =>
           bind (perform (GetItem grid (VInt 0))) (fun row0 =>
           bind (perform (Len row0)) (fun k =>
           bind (print [VStr ("Grid size: " ++ format_int (int_of n) ++ "×"
                                ++ format_int (int_of k))%string]) (fun _ =>
           bind (display grid) (fun _ => ret grid))))))).
  - intros w. unfold Cell3, grid_size_text, py_len.
    apply bind_cong. intros grid w1. rewrite !bind_bind.
    apply bind_cong. intros n w2. rewrite bind_ret, !bind_bind.
    apply bind_cong. intros row0 w3. rewrite !bind_bind.
    apply bind_cong. intros k w4. rewrite !bind_ret. reflexivity.
  - emitting.
Qed.

#[local] Hint Resolve emits_Cell3 : emit.

Lemma emits_notebook : emits notebook notebook_prints.
Proof.
  unfold notebook, notebook_prints, Cell1, Cell2, Cell4, Cell5, Cell6, Cell7,
    Cell8, Cell9, unpack2.
  emitting.
Qed.

(** Whatever the library answers to the operations of a run, the calls of
    [print] that the cells make are, in this order, the one of Cell 3 on its
    size text, then those on [Logged events:], [Mask shape per player:],
    [Feature vector length per player:] and [State potential:], each with
    one value as second argument -- or a beginning of this list when the
    run raises; a run that completes makes all five.  This is about the
    calls the notebook makes, each taken to return: not about what the
    library writes to the same stream while it is called. *)
Theorem notebook_prints_in_order :
  (exists n,
     fits (firstn n notebook_prints)
          (print_calls (out (snd (notebook init))))) /\
  (forall u,
     fst (notebook init) = Ok u ->
     fits notebook_prints (print_calls (out (snd (notebook init))))).
Proof.
  destruct (emits_notebook init) as [ext [Ho Hs]]. cbn [out init app] in Ho.
  rewrite Ho. split.
  - destruct (fst (notebook init)); [|exact Hs].
    exists 5%nat. exact Hs.
  - intros u Hu. rewrite Hu in Hs. exact Hs.
Qed.

End Library.

(** ** Runs against the sample libraries *)

(** Against the saved session the notebook runs to its end and prints what
    the saved notebook shows on its standard output. *)
Example notebook_saved_session :
  fst (notebook saved_session init) = Ok tt /\
  filter (fun o => match o with Stdout _ => true | Display _ => false end)
         (out (snd (notebook saved_session init))) =
    [Stdout [VStr recorded_grid_size];
     Stdout [VStr "Logged events:"; VObj 22];
     Stdout [VStr "Mask shape per player:"; recorded_mask_shape];
     Stdout [VStr "Feature vector length per player:"; VInt 96];
     Stdout [VStr "State potential:"; VFloat "30.633689117862914"]].
Proof. split; vm_compute; reflexivity. Qed.

(** With the older library Cell 3 takes the fallback and goes on. *)
Lemma extract_grid_fallback_witness :
  fst (extract_grid grid_only (VObj 9) init) = Ok recorded_grid /\
  nth_error (trace (snd (notebook grid_only init))) 13
    = Some (GetAttr (VObj 9) "grid", Ok recorded_grid).
Proof.
  destruct (extract_grid_fallback grid_only (VObj 9) init)
    as [[rest [_ [_ [_ [Hfb _]]]]] Hnb].
  split.
  - destruct (Hfb eq_refl) as [_ Hres]. rewrite Hres. reflexivity.
  - destruct (Hnb 12%nat (GetAttr (VObj 9) "terrain_mtx") AttributeError
                  eq_refl)
      as [[Hlen _]|[obj [r [Ho [_ Hn]]]]].
    + vm_compute in Hlen. discriminate Hlen.
    + vm_compute. reflexivity.
Defined.

(** A missing layout ends the run at its tenth operation, with the
    library's exception. *)
Lemma library_failures_propagate_witness :
  fst (notebook missing_layout init) = Raised (OtherError "FileNotFoundError")
  /\ 10%nat = List.length (trace (snd (notebook missing_layout init))).
Proof.
  refine (proj1 (library_failures_propagate missing_layout) 9%nat
            (CallMethod (VObj 3) "from_layout_name" [VStr layout_name] [])
            (OtherError "FileNotFoundError") _ _).
  - vm_compute. reflexivity.
  - intros [mdp H]. discriminate H.
Defined.

(** An invalid action ends the run in Cell 5; nothing of Cells 6 to 9 is
    performed or printed. *)
Example invalid_action_run :
  fst (notebook invalid_action init) = Raised ValueError /\
  List.length (trace (snd (notebook invalid_action init))) = 21%nat /\
  out (snd (notebook invalid_action init)) =
    [Stdout [VStr recorded_grid_size]; Display recorded_grid;
     Display (VObj 17)].
Proof. repeat split; vm_compute; reflexivity. Qed.

(** ** The cells against the sample libraries *)

(** On the ragged layout Cell 3 reports two rows of two cells. *)
Lemma Cell3_reports_first_row_witness :
  fst (Cell3 ragged_layout (VObj 9) init) = Ok (grid_of ragged_rows) /\
  out (snd (Cell3 ragged_layout (VObj 9) init)) =
    [Stdout [VStr "Grid size: 2×2"]; Display (grid_of ragged_rows)].
Proof.
  exact (Cell3_reports_first_row ragged_layout (VObj 9) init
           ["X"; "X"] [["X"]] eq_refl).
Defined.

Lemma Cell3_empty_grid_witness :
  fst (Cell3 empty_layout (VObj 9) init) = Raised IndexError /\
  out (snd (Cell3 empty_layout (VObj 9) init)) = [].
Proof.
  destruct (Cell3_empty_grid empty_layout (VObj 9) init eq_refl)
    as [Hr [Ho _]].
  split; [exact Hr | exact Ho].
Defined.

(** [None] in place of the grid-world has neither attribute. *)
Lemma Cell3_fallback_fails_witness :
  Cell3 saved_session VNone init =
    (Raised AttributeError,
     World [(GetAttr VNone "terrain_mtx", Raised AttributeError);
            (GetAttr VNone "grid", Raised AttributeError)] []).
Proof.
  exact (Cell3_fallback_fails saved_session VNone init AttributeError
           eq_refl eq_refl).
Defined.

Lemma Cell6_wrong_count_witness :
  fst (Cell6 (masks 3) (VObj 9) (VObj 11) init) = Raised ValueError /\
  fst (Cell6 (masks 0) (VObj 9) (VObj 11) init) = Raised ValueError.
Proof.
  split.
  - rewrite (Cell6_wrong_count (masks 3) (VObj 9) (VObj 11) init
               (VTuple [VObj 100; VObj 101; VObj 102])
               [VObj 100; VObj 101; VObj 102] eq_refl eq_refl);
      [reflexivity | discriminate].
  - rewrite (Cell6_wrong_count (masks 0) (VObj 9) (VObj 11) init
               (VTuple []) [] eq_refl eq_refl);
      [reflexivity | discriminate].
Defined.


Ltac in_log := vm_compute; repeat first [ left; reflexivity | right ].


(** In the saved session the rollouts are asked from the environment of
    Cell 2, for the pair built in Cell 9. *)
Lemma rollout_on_built_env_witness :
  exists cls mdp pair_cls agent0 agent1,
    In (CallMethod cls "from_mdp" [mdp] [("horizon", VInt 400)],
        Ok (VObj 10))
       (trace (snd (notebook saved_session init))) /\
    In (Call pair_cls [agent0; agent1] [], Ok (VObj 39))
       (trace (snd (notebook saved_session init))).
Proof.
  destruct (rollout_on_built_env saved_session (VObj 10) [VObj 39]
              [("num_games", VInt 1); ("display", VBool false);
               ("info", VBool true)] (Ok (VObj 40)))
    as [cls [gridworld [mdp [pair [pair_cls [agent_cls [agent0 [agent1
        [Hargs [_ [H1 [_ [H2 _]]]]]]]]]]]]].
  - in_log.
  - injection Hargs as <-. exists cls, mdp, pair_cls, agent0, agent1.
    split; assumption.
Defined.

Lemma rendering_uses_extracted_grid_witness :
  exists mdp attr,
    In (GetAttr mdp attr, Ok recorded_grid)
       (trace (snd (notebook grid_only init))) /\
    (attr = "terrain_mtx" \/ attr = "grid").
Proof.
  destruct (rendering_uses_extracted_grid grid_only (VObj 17) [VObj 11]
              [("grid", recorded_grid); ("ipython_display", VBool true)]
              (Ok (VObj 18)))
    as [state [grid [mdp [attr [_ [Hk [Hin Hattr]]]]]]].
  - in_log.
  - injection Hk as <-. exists mdp, attr. split; assumption.
Defined.

(** The saved session makes all five calls of [print]. *)
Lemma notebook_prints_in_order_witness :
  fits notebook_prints
       (print_calls (out (snd (notebook saved_session init)))).
Proof.
  apply (proj2 (notebook_prints_in_order saved_session) tt).
  vm_compute. reflexivity.
Defined.

(** ** The grid of Cell 3 is not checked *)


